(** * The CockroachDB harness of the sweet benchmark suite

    A shallow embedding of [sweet/harnesses/cockroachdb.go] and the
    properties of its four lifecycle stages (CheckPrerequisites, Get,
    Build, Run).

    The harness drives external tools.  Every call that leaves the
    harness (starting a process, the Go tool helper, copying a file,
    purging a directory, cloning a repository, tracing a command) is an
    [Event]; a [World] decides the outcome of each event and moves to its
    next state.  A stage is a function from the world it starts in to its
    return value, the world it ends in and the ordered record of the
    calls it made, each with its outcome. *)

From Stdlib Require Import Ascii String OrderedTypeEx.
From stdpp Require Import gmap strings list fin_maps sorting.

(** Go's [error]: [None] is [nil], [Some msg] an error whose [Error()]
    text is [msg]. *)
Abbreviation error := string (only parsing).

(** * Package [common]: environment overlays and stage configurations *)

Module Env.

(** Modelled from the spec: the edits of [common.Env], which is declared
    in sweet/common/env.go, outside the harness.  The spec describes the
    overlay as an ordered list of edits over a base key/value
    environment, the edits being prefix-prepend, set-if-absent and
    force-set, applied in declaration order, never changing the base in
    place. *)
Inductive Edit : Type :=
| EPrefix (key value : string)
| ESetIfAbsent (key value : string)
| EMustSet (key value : string).

(** Modelled from the spec: [common.Env], a base snapshot and the edits
    made over it, oldest first. *)
Record t : Type := mk { base : gmap string string; edits : list Edit }.

(** Modelled from the spec: the effect of one edit on the current
    bindings.  [prefix] prepends to the current value of the key and
    creates the key when it is absent; [setIfAbsent] never overwrites;
    [mustSet] always does. *)
Definition applyEdit (m : gmap string string) (ed : Edit) : gmap string string :=
  match ed with
  | EPrefix k v => <[k := v +:+ default "" (m !! k)]> m
  | ESetIfAbsent k v => match m !! k with Some _ => m | None => <[k := v]> m end
  | EMustSet k v => <[k := v]> m
  end.

(** Modelled from the spec: the bindings an overlay stands for, its
    edits applied, in order, to its base. *)
Definition resolve (e : t) : gmap string string :=
  foldl applyEdit (base e) (edits e).

(** Modelled from the spec: reading a key of the overlay. *)
Definition Lookup (name : string) (e : t) : option string := resolve e !! name.

(** A derived overlay: the same base, one more edit at the end. *)
Definition edit (ed : Edit) (e : t) : t := mk (base e) (edits e ++ [ed]).

Definition applyEdits (eds : list Edit) (e : t) : t := foldl (λ e ed, edit ed e) e eds.

(** [splitVar "K=V"] is [(K, V)], the split being at the first [=]. *)
Fixpoint splitVar (s : string) : option (string * string) :=
  match s with
  | EmptyString => None
  | String c s' =>
      if Ascii.eqb c "="%char then Some (EmptyString, s')
      else match splitVar s' with
           | Some (k, v) => Some (String c k, v)
           | None => None
           end
  end.

(** Modelled from the spec: an overlay with no edit over a base
    snapshot. *)
Definition NewEnv (bindings : gmap string string) : t := mk bindings [].

(** Modelled from the spec: [e.Prefix(name, prefix)]. *)
Definition Prefix (name prefix : string) (e : t) : t := edit (EPrefix name prefix) e.

(** Modelled from the spec: the conditional set. *)
Definition SetIfAbsent (name value : string) (e : t) : t := edit (ESetIfAbsent name value) e.

(** Modelled from the spec: [e.MustSet("K=V")], the force-set.  The
    harness passes the variable as one string; the spec gives no
    behaviour for a string without [=], and the model leaves the overlay
    as it is there ([Build] never passes one, see [MustSet_var]). *)
Definition MustSet (var : string) (e : t) : t :=
  match splitVar var with
  | Some (k, v) => edit (EMustSet k v) e
  | None => e
  end.

Definition render (kv : string * string) : string := kv.1 +:+ "=" +:+ kv.2.

(** Modelled from the spec: the "stable key ordering" of the flattened
    list, keys in increasing order of their bytes. *)
Definition keyLe (k1 k2 : string) : Prop := Is_true (String.leb k1 k2).

#[global] Instance keyLe_dec : RelDecision keyLe :=
  λ k1 k2, decide (Is_true (String.leb k1 k2)).

(** Modelled from the spec: flattening bindings whose keys are handed
    over in the order [ks].  Ranging over a map gives the keys in no
    particular order, one that may differ from one call to the next; the
    keys are put in order before the [K=V] entries are made. *)
Definition flatten (ks : list string) (m : gmap string string) : list string :=
  (λ k, render (k, default "" (m !! k))) <$> merge_sort keyLe ks.

(** The keys of an overlay, in the order the map keeps them. *)
Definition keys (e : t) : list string := (map_to_list (resolve e)).*1.

(** Modelled from the spec: [e.Collapse()], the flat list a process
    launch needs: one [K=V] entry per key, the value being the result
    of all edits, the entries in the order of their keys. *)
Definition Collapse (e : t) : list string := flatten (keys e) (resolve e).

End Env.

Module ConfigEnv.
(** Modelled from the spec: [common.ConfigEnv], the type of
    [cfg.BuildEnv] and [cfg.ExecEnv], declared outside the harness.  It
    embeds the overlay: [cfg.BuildEnv.Env] reads it and
    [cfg.ExecEnv.Collapse()] goes through it. *)
Record t : Type := mk { Env : Env.t }.
End ConfigEnv.

Module Config.
(** Modelled from the spec: [common.Config], declared outside the
    harness, with the fields the harness reads: the resolved toolchain
    root and the build and exec environment overlays. *)
Record t : Type := mk {
  GoRoot : string;
  BuildEnv : ConfigEnv.t;
  ExecEnv : ConfigEnv.t
}.
End Config.

Module GetConfig.
(** Modelled from the spec: [common.GetConfig], the destination of the
    source acquisition. *)
Record t : Type := mk { SrcDir : string }.
End GetConfig.

Module BuildConfig.
(** Modelled from the spec: [common.BuildConfig], the three directories
    a build reads from and writes to. *)
Record t : Type := mk { SrcDir : string; BinDir : string; BenchDir : string }.
End BuildConfig.

(** An [io.Writer] a process can be connected to. *)
Inductive Writer : Type :=
| os_Stdout
| os_Stderr
| FileWriter (name : string).

Module RunConfig.
(** Modelled from the spec: [common.RunConfig]: where the artifacts are,
    the scratch directory, the base arguments, the short-mode flag and
    the sink of the captured output. *)
Record t : Type := mk {
  BinDir : string;
  TmpDir : string;
  Args : list string;
  Short : bool;
  Results : Writer
}.
End RunConfig.

(** * Package [os/exec] *)

Module Cmd.
(** [exec.Cmd] with Go's zero values: an empty [Dir] is the caller's
    directory, an [Env] of [None] ([nil]) lets the launcher hand the
    ambient environment to the child, a [Stdout] or [Stderr] of [None]
    is the null device. *)
Record t : Type := mk {
  Path : string;
  Args : list string;
  Env : option (list string);
  Dir : string;
  Stdout : option Writer;
  Stderr : option Writer
}.

(** The assignments [cmd.Dir = d], [cmd.Env = e], [cmd.Stdout = w] and
    [cmd.Stderr = w].  A slice is a list here, so a nil slice and an
    empty one are not told apart; what the launcher does with either
    belongs to the world. *)
Definition with_Dir (d : string) (c : t) : t :=
  mk (Path c) (Args c) (Env c) d (Stdout c) (Stderr c).
Definition with_Env (e : list string) (c : t) : t :=
  mk (Path c) (Args c) (Some e) (Dir c) (Stdout c) (Stderr c).
Definition with_Stdout (w : Writer) (c : t) : t :=
  mk (Path c) (Args c) (Env c) (Dir c) (Some w) (Stderr c).
Definition with_Stderr (w : Writer) (c : t) : t :=
  mk (Path c) (Args c) (Env c) (Dir c) (Stdout c) (Some w).
End Cmd.

(** [exec.Command(name, arg...)]: the argument vector starts with the
    command's name.  [Path] holds the name as given.  For a name without
    a path separator [os/exec] looks the name up along [PATH] when the
    command is made and stores the file found; that lookup is left to
    the world, which answers the call that runs the command, and nothing
    below is stated of the file a name stands for. *)
Definition exec_Command (name : string) (arg : list string) : Cmd.t :=
  Cmd.mk name (name :: arg) None "" None None.

(** The helper [cfg.GoTool()] returns, made from the configuration. *)
Inductive Go : Type := GoTool (cfg : Config.t).

(** * Calls that leave the harness *)

Inductive Event : Type :=
| EvGoDo (g : Go) (dir : string) (args : list string)
| EvGoBuildPath (g : Go) (pkg out : string)
| EvCmdRun (cmd : Cmd.t)
| EvCopyFile (dst src : string)
| EvRmDirContents (dir : string)
| EvGitDeepClone (dir url ref : string)
| EvTraceCommand (cmd : Cmd.t) (quiet : bool).

(** A call together with the error it returned. *)
Abbreviation Call := (Event * option error)%type (only parsing).

(** What surrounds the harness: it answers every call and moves on. *)
Class World : Type := {
  W : Type;
  perform : Event → W → option error * W
}.

(** The platform the harness is compiled for: [runtime.GOARCH] and
    [filepath.Join]. *)
Class Host : Type := {
  GOARCH : string;
  filepath_Join : list string → string
}.

(** * Stages as functions of the world *)

Section Harness.
Context `{World} `{Host}.

(** What running a stage from a world gives: the value it returns, the
    world it leaves and the calls it made, first call first. *)
Record Result (A : Type) : Type := mkResult {
  value : A;
  final : W;
  calls : list Call
}.
Arguments mkResult {A} _ _ _.
Arguments value {A} _.
Arguments final {A} _.
Arguments calls {A} _.

Definition M (A : Type) : Type := W → Result A.

Definition ret {A : Type} (a : A) : M A := λ w, mkResult a w [].

Definition bind {A B : Type} (m : M A) (k : A → M B) : M B := λ w,
  let r := m w in
  let r' := k (value r) (final r) in
  mkResult (value r') (final r') (calls r ++ calls r').

(** One call: the world answers, the call and its answer are recorded. *)
Definition call (ev : Event) : M (option error) := λ w,
  let r := perform ev w in
  mkResult r.1 r.2 [(ev, r.1)].

(** [if err := m; err != nil { return wrap(err) }], then [k]. *)
Definition check_with (wrap : error → error) (m k : M (option error)) : M (option error) :=
  bind m (λ err, match err with
                 | Some e => ret (Some (wrap e))
                 | None => k
                 end).

(** [if err := m; err != nil { return err }], then [k]. *)
Definition check (m k : M (option error)) : M (option error) := check_with id m k.

Notation "'check!' m 'in' k" := (check m k)
  (at level 10, m at level 99, k at level 200, only parsing).
Notation "'run!' m 'in' k" := (bind m (λ _, k))
  (at level 10, m at level 99, k at level 200, only parsing).

(** [defer cleanup()] in front of [body]: the cleanup runs when the
    body has returned, whatever it returned, and what the body returned
    is what the function returns. *)
Definition defer {A B : Type} (cleanup : M B) (body : M A) : M A :=
  bind body (λ r, bind cleanup (λ _, ret r)).

(** [for _, x := range xs { body }; return nil], where the body
    returns from the function exactly when it yields an error. *)
Fixpoint forRange {A : Type} (xs : list A) (body : A → M (option error)) : M (option error) :=
  match xs with
  | [] => ret None
  | x :: xs' => check! body x in forRange xs' body
  end.

(** ** The calls of the harness *)

Definition Go_Do (g : Go) (dir : string) (args : list string) : M (option error) :=
  call (EvGoDo g dir args).
Definition Go_BuildPath (g : Go) (pkg out : string) : M (option error) :=
  call (EvGoBuildPath g pkg out).
Definition Cmd_Run (cmd : Cmd.t) : M (option error) := call (EvCmdRun cmd).
Definition copyFile (dst src : string) : M (option error) := call (EvCopyFile dst src).
Definition rmDirContents (dir : string) : M (option error) := call (EvRmDirContents dir).
Definition gitDeepClone (dir url ref : string) : M (option error) :=
  call (EvGitDeepClone dir url ref).
(** [log.TraceCommand] returns nothing: the world moves on and the
    call is recorded with no error. *)
Definition log_TraceCommand (cmd : Cmd.t) (quiet : bool) : M unit := λ w,
  mkResult tt (perform (EvTraceCommand cmd quiet) w).2
           [(EvTraceCommand cmd quiet, None)].

(** ** [CockroachDB], the harness *)

Definition CheckPrerequisites : M (option error) :=
  if negb (String.eqb GOARCH "arm64") && negb (String.eqb GOARCH "amd64")
  then ret (Some "requires amd64 or arm64")
  else ret None.

Definition Get (gcfg : GetConfig.t) : M (option error) :=
  gitDeepClone (GetConfig.SrcDir gcfg)
               "https://github.com/cockroachdb/cockroach"
               "v24.1.0-rc.1".

(** The deferred cleanup of [Build]: [bazel clean --expunge] in the
    source directory, its error dropped. *)
Definition cleanCmd (bcfg : BuildConfig.t) : Cmd.t :=
  Cmd.with_Stderr os_Stderr
    (Cmd.with_Stdout os_Stdout
       (Cmd.with_Dir (BuildConfig.SrcDir bcfg)
          (exec_Command "bazel" ["clean"; "--expunge"]))).

Definition bazelClean (bcfg : BuildConfig.t) : M unit :=
  run! Cmd_Run (cleanCmd bcfg) in ret tt.

(** The build environment: the configured one with the toolchain's
    [bin] in front of [PATH] and [GOROOT] forced. *)
Definition buildEnv (cfg : Config.t) : Env.t :=
  let env := ConfigEnv.Env (Config.BuildEnv cfg) in
  let env := Env.Prefix "PATH" (filepath_Join [Config.GoRoot cfg; "bin"] +:+ ":") env in
  let env := Env.MustSet ("GOROOT=" +:+ Config.GoRoot cfg) env in
  env.

Definition bazelCmd (bcfg : BuildConfig.t) (env : Env.t) (args : list string) : Cmd.t :=
  Cmd.with_Stderr os_Stderr
    (Cmd.with_Stdout os_Stdout
       (Cmd.with_Env (Env.Collapse env)
          (Cmd.with_Dir (BuildConfig.SrcDir bcfg)
             (exec_Command "bazel" args)))).

Definition genCodeCmd (cfg : Config.t) (bcfg : BuildConfig.t) : Cmd.t :=
  bazelCmd bcfg (buildEnv cfg) ["run"; "//pkg/gen:code"].

Definition genCgoCmd (cfg : Config.t) (bcfg : BuildConfig.t) : Cmd.t :=
  bazelCmd bcfg (buildEnv cfg)
    ["run"; "//pkg/cmd/generate-cgo:generate-cgo"; "--run_under";
     "cd " +:+ BuildConfig.SrcDir bcfg +:+ " && "].

Definition chmodCmd (bcfg : BuildConfig.t) : Cmd.t :=
  exec_Command "chmod"
    ["-R"; "755"; filepath_Join [BuildConfig.BinDir bcfg; "cockroachdb-bench"]].

(** What [Build] does once the cleanup is registered. *)
Definition buildSteps (cfg : Config.t) (bcfg : BuildConfig.t) : M (option error) :=
  (* Use bazel to generate the artifacts needed to enable a go build. *)
  check! Cmd_Run (genCodeCmd cfg bcfg) in
  (* Build the c-deps needed. *)
  check! Cmd_Run (genCgoCmd cfg bcfg) in
  (* Build the cockroach-short binary. *)
  check! Go_BuildPath (GoTool cfg)
           (filepath_Join [BuildConfig.SrcDir bcfg; "pkg/cmd/cockroach-short"])
           (BuildConfig.BinDir bcfg) in
  (* Rename the binary from cockroach-short to cockroach. *)
  check! copyFile (filepath_Join [BuildConfig.BinDir bcfg; "cockroach"])
                  (filepath_Join [BuildConfig.BinDir bcfg; "cockroach-short"]) in
  (* Build the benchmark wrapper. *)
  check! Go_BuildPath (GoTool cfg)
           (BuildConfig.BenchDir bcfg)
           (filepath_Join [BuildConfig.BinDir bcfg; "cockroachdb-bench"]) in
  check! Cmd_Run (chmodCmd bcfg) in
  ret None.

Definition Build (cfg : Config.t) (bcfg : BuildConfig.t) : M (option error) :=
  check_with (λ e, "error building bazelisk: " +:+ e)
    (Go_Do (GoTool cfg) "" ["install"; "github.com/bazelbuild/bazelisk@latest"])
    (defer (bazelClean bcfg) (buildSteps cfg bcfg)).

(** The variants [Run] ranges over. *)
Definition variants : list string :=
  ["kv0/nodes=1"; "kv50/nodes=1"; "kv95/nodes=1";
   "kv0/nodes=3"; "kv50/nodes=3"; "kv95/nodes=3"].

(** The arguments of one variant's process: [append(rcfg.Args, ...)],
    then [-short] in short mode.  [exec.Command] copies the arguments,
    so a backing array shared between rounds does not show. *)
Definition runArgs (rcfg : RunConfig.t) (bench : string) : list string :=
  let args := RunConfig.Args rcfg ++
              ["-bench"; bench;
               "-cockroachdb-bin"; filepath_Join [RunConfig.BinDir rcfg; "cockroach"];
               "-tmp"; RunConfig.TmpDir rcfg] in
  if RunConfig.Short rcfg then args ++ ["-short"] else args.

Definition runCmd (cfg : Config.t) (rcfg : RunConfig.t) (bench : string) : Cmd.t :=
  Cmd.with_Stderr (RunConfig.Results rcfg)
    (Cmd.with_Stdout (RunConfig.Results rcfg)
       (Cmd.with_Env (Env.Collapse (ConfigEnv.Env (Config.ExecEnv cfg)))
          (exec_Command (filepath_Join [RunConfig.BinDir rcfg; "cockroachdb-bench"])
                        (runArgs rcfg bench)))).

(** The body of the loop of [Run] for one variant. *)
Definition runBench (cfg : Config.t) (rcfg : RunConfig.t) (bench : string) : M (option error) :=
  let cmd := runCmd cfg rcfg bench in
  run! log_TraceCommand cmd false in
  check! Cmd_Run cmd in
  (* Delete tmp: cockroachdb will have written something there. *)
  check! rmDirContents (RunConfig.TmpDir rcfg) in
  ret None.

(** The loop of [Run] over a list of variants. *)
Definition runLoop (cfg : Config.t) (rcfg : RunConfig.t) (benches : list string) : M (option error) :=
  forRange benches (runBench cfg rcfg).

Definition Run (cfg : Config.t) (rcfg : RunConfig.t) : M (option error) :=
  runLoop cfg rcfg variants.

End Harness.

Arguments mkResult {_ A} _ _ _.
Arguments value {_ A} _.
Arguments final {_ A} _.
Arguments calls {_ A} _.

(** * Reading the record of calls *)

#[global] Instance Writer_eq_dec : EqDecision Writer.
Proof. solve_decision. Defined.
#[global] Instance Cmd_eq_dec : EqDecision Cmd.t.
Proof. solve_decision. Defined.
#[global] Instance Edit_eq_dec : EqDecision Env.Edit.
Proof. solve_decision. Defined.
#[global] Instance Env_eq_dec : EqDecision Env.t.
Proof. solve_decision. Defined.
#[global] Instance ConfigEnv_eq_dec : EqDecision ConfigEnv.t.
Proof. solve_decision. Defined.
#[global] Instance Config_eq_dec : EqDecision Config.t.
Proof. solve_decision. Defined.
#[global] Instance Go_eq_dec : EqDecision Go.
Proof. solve_decision. Defined.
#[global] Instance Event_eq_dec : EqDecision Event.
Proof. solve_decision. Defined.

(** How many calls of a record satisfy [p]. *)
Fixpoint countIf (p : Call → bool) (t : list Call) : nat :=
  match t with
  | [] => 0
  | c :: t' => (if p c then 1 else 0) + countIf p t'
  end.

(** The processes started, in order, and how many there are. *)
Definition processOf (c : Call) : option Cmd.t :=
  match c.1 with EvCmdRun cmd => Some cmd | _ => None end.

Definition started (t : list Call) : list Cmd.t := omap processOf t.

Definition invocations (t : list Call) : nat := length (started t).

(** The processes that exited without error. *)
Definition exitedOk (c : Call) : bool :=
  match c with (EvCmdRun _, None) => true | _ => false end.

(** The calls that purge [dir], and how many there are. *)
Definition isPurge (dir : string) (c : Call) : bool :=
  match c.1 with EvRmDirContents d => bool_decide (d = dir) | _ => false end.

Definition purges (dir : string) (t : list Call) : nat := countIf (isPurge dir) t.

(** How many times the call [ev] was made. *)
Definition isCall (ev : Event) (c : Call) : bool := bool_decide (c.1 = ev).

Definition occurrences (ev : Event) (t : list Call) : nat := countIf (isCall ev) t.

Definition succeeded (c : Call) : Prop := c.2 = None.

(** The scratch discipline of the loop of [Run], read off a record: a
    process that exited without error is directly followed by the purge
    of [dir]; a process that failed is followed by nothing. *)
Fixpoint purgeDiscipline (dir : string) (t : list Call) : bool :=
  match t with
  | [] => true
  | c :: t' =>
      match c with
      | (EvCmdRun _, None) => match t' with c' :: _ => isPurge dir c' | [] => false end
      | (EvCmdRun _, Some _) => match t' with [] => true | _ :: _ => false end
      | _ => true
      end && purgeDiscipline dir t'
  end.

Section Records.
Context `{Host}.

(** The cleanup [Build] registers, as a call. *)
Definition cleanup (bcfg : BuildConfig.t) : Event := EvCmdRun (cleanCmd bcfg).

(** The steps of [Build] in a record of its calls: every call but the
    cleanup.  When [Build] stops at its step [i], these are [i] calls. *)
Definition stepsOf (bcfg : BuildConfig.t) (t : list Call) : list Call :=
  List.filter (λ c, negb (isCall (cleanup bcfg) c)) t.

(** A call that returned no error. *)
Definition ok (ev : Event) : Call := (ev, None).

(** The seven steps of [Build], in the order of the source: the
    install of bazelisk, then the six steps behind the [defer]. *)
Definition bazelisk (cfg : Config.t) : Event :=
  EvGoDo (GoTool cfg) "" ["install"; "github.com/bazelbuild/bazelisk@latest"].

Definition laterSteps (cfg : Config.t) (bcfg : BuildConfig.t) : list Event :=
  [EvCmdRun (genCodeCmd cfg bcfg);
   EvCmdRun (genCgoCmd cfg bcfg);
   EvGoBuildPath (GoTool cfg)
     (filepath_Join [BuildConfig.SrcDir bcfg; "pkg/cmd/cockroach-short"])
     (BuildConfig.BinDir bcfg);
   EvCopyFile (filepath_Join [BuildConfig.BinDir bcfg; "cockroach"])
              (filepath_Join [BuildConfig.BinDir bcfg; "cockroach-short"]);
   EvGoBuildPath (GoTool cfg)
     (BuildConfig.BenchDir bcfg)
     (filepath_Join [BuildConfig.BinDir bcfg; "cockroachdb-bench"]);
   EvCmdRun (chmodCmd bcfg)].

Definition buildPlan (cfg : Config.t) (bcfg : BuildConfig.t) : list Event :=
  bazelisk cfg :: laterSteps cfg bcfg.

(** The three ways one round of the loop of [Run] can go. *)
Definition traced (cfg : Config.t) (rcfg : RunConfig.t) (b : string) : Call :=
  (EvTraceCommand (runCmd cfg rcfg b) false, None).

Definition roundOk (cfg : Config.t) (rcfg : RunConfig.t) (b : string) : list Call :=
  [traced cfg rcfg b;
   (EvCmdRun (runCmd cfg rcfg b), None);
   (EvRmDirContents (RunConfig.TmpDir rcfg), None)].

Definition roundFailed (cfg : Config.t) (rcfg : RunConfig.t) (b : string) (e : error) : list Call :=
  [traced cfg rcfg b;
   (EvCmdRun (runCmd cfg rcfg b), Some e)].

Definition roundPurgeFailed (cfg : Config.t) (rcfg : RunConfig.t) (b : string) (e : error) : list Call :=
  [traced cfg rcfg b;
   (EvCmdRun (runCmd cfg rcfg b), None);
   (EvRmDirContents (RunConfig.TmpDir rcfg), Some e)].

(** The records the loop can leave over a list of variants, with the
    value it returns. *)
Inductive LoopRecord (cfg : Config.t) (rcfg : RunConfig.t) :
  list string → option error → list Call → Prop :=
| LoopDone :
    LoopRecord cfg rcfg [] None []
| LoopNext b bs r t :
    LoopRecord cfg rcfg bs r t →
    LoopRecord cfg rcfg (b :: bs) r (roundOk cfg rcfg b ++ t)
| LoopFailed b bs e :
    LoopRecord cfg rcfg (b :: bs) (Some e) (roundFailed cfg rcfg b e)
| LoopPurgeFailed b bs e :
    LoopRecord cfg rcfg (b :: bs) (Some e) (roundPurgeFailed cfg rcfg b e).

(** The loop stopped at the first call that failed: what a record [t]
    and a returned value [r] over the variants [vs] then look like. *)
Definition stopsAtFirstFailure (cfg : Config.t) (rcfg : RunConfig.t)
    (vs : list string) (r : option error) (t : list Call) : Prop :=
  match r with
  | None =>
      Forall succeeded t ∧
      started t = runCmd cfg rcfg <$> vs ∧
      invocations t = length vs
  | Some e =>
      ∃ (k : nat) (b : string) (pre : list Call) (c : Call),
        vs !! k = Some b ∧
        t = pre ++ [c] ∧ Forall succeeded pre ∧ c.2 = Some e ∧
        (c.1 = EvCmdRun (runCmd cfg rcfg b) ∨
         c.1 = EvRmDirContents (RunConfig.TmpDir rcfg)) ∧
        started t = runCmd cfg rcfg <$> take (S k) vs ∧
        invocations t = S k
  end.

(** The argument order the specification text gives: base arguments,
    variant flags, the short-mode flag when enabled, then the resolved
    paths. *)
Definition specArgs (rcfg : RunConfig.t) (bench : string) : list string :=
  RunConfig.Args rcfg ++
  ["-bench"; bench] ++
  (if RunConfig.Short rcfg then ["-short"] else []) ++
  ["-cockroachdb-bin"; filepath_Join [RunConfig.BinDir rcfg; "cockroach"];
   "-tmp"; RunConfig.TmpDir rcfg].

End Records.

(** * A scripted world and a host, to run the stages on *)

(** The world answers the fallible calls from a script, one answer per
    call, and succeeds when the script is used up.  Tracing a command
    takes no answer. *)
#[local] Instance scripted : World := {|
  W := list (option error);
  perform ev w :=
    match ev with
    | EvTraceCommand _ _ => (None, w)
    | _ => match w with
           | [] => (None, [])
           | o :: w' => (o, w')
           end
    end
|}.

(** [filepath.Join] on elements that are already clean: the non-empty
    ones, separated by a slash. *)
Fixpoint joinSlash (elem : list string) : string :=
  match elem with
  | [] => ""
  | e :: rest =>
      if String.eqb e "" then joinSlash rest
      else match joinSlash rest with
           | EmptyString => e
           | r => e +:+ "/" +:+ r
           end
  end.

#[local] Instance linux_amd64 : Host := {| GOARCH := "amd64"; filepath_Join := joinSlash |}.

Definition linux_riscv64 : Host := {| GOARCH := "riscv64"; filepath_Join := joinSlash |}.

Definition demoEnv : Env.t :=
  Env.NewEnv (<["PATH" := "/usr/bin"]> (<["HOME" := "/root"]> ∅)).

Definition demoConfig : Config.t :=
  Config.mk "/go" (ConfigEnv.mk demoEnv) (ConfigEnv.mk demoEnv).

Definition demoBuild : BuildConfig.t := BuildConfig.mk "/src" "/bin" "/bench".

Definition demoRun (short : bool) : RunConfig.t :=
  RunConfig.mk "/bin" "/tmp/crdb" ["-v"] short (FileWriter "results").

(** The bindings of [demoEnv], reached another way: a base with another
    [PATH], and a force-set on top. *)
Definition demoEnv' : Env.t :=
  Env.mk (<["HOME" := "/root"]> (<["PATH" := "/bin"]> ∅))
         [Env.EMustSet "PATH" "/usr/bin"].


(** Another configuration: another toolchain root and another build
    environment, the same exec environment. *)
Definition demoConfig' : Config.t :=
  Config.mk "/opt/go" (ConfigEnv.mk demoEnv') (ConfigEnv.mk demoEnv).

(** * Properties *)

Section Properties.
Context `{World} `{Host}.

(** ** Stepping through a stage *)

(** A checked call, by the answer of the world. *)
Lemma check_with_call wrap ev k w :
  check_with wrap (call ev) k w =
  match perform ev w with
  | (Some e, w') => mkResult (Some (wrap e)) w' [(ev, Some e)]
  | (None, w') =>
      mkResult (value (k w')) (final (k w')) ((ev, None) :: calls (k w'))
  end.
Proof.
  unfold check_with, bind, call.
  destruct (perform ev w) as [[e|] w']; reflexivity.
Qed.

Lemma check_call ev k w :
  check (call ev) k w =
  match perform ev w with
  | (Some e, w') => mkResult (Some e) w' [(ev, Some e)]
  | (None, w') =>
      mkResult (value (k w')) (final (k w')) ((ev, None) :: calls (k w'))
  end.
Proof. apply check_with_call. Qed.

(** ** The loop of [Run] *)

Lemma runLoop_cons cfg rcfg b bs w :
  runLoop cfg rcfg (b :: bs) w = check (runBench cfg rcfg b) (runLoop cfg rcfg bs) w.
Proof. reflexivity. Qed.

(** One round of the loop, by the answers of the world. *)
Lemma runBench_cases cfg rcfg b w :
  let w1 := (perform (EvTraceCommand (runCmd cfg rcfg b) false) w).2 in
  runBench cfg rcfg b w =
  match perform (EvCmdRun (runCmd cfg rcfg b)) w1 with
  | (Some e, w2) => mkResult (Some e) w2 (roundFailed cfg rcfg b e)
  | (None, w2) =>
      match perform (EvRmDirContents (RunConfig.TmpDir rcfg)) w2 with
      | (Some e, w3) => mkResult (Some e) w3 (roundPurgeFailed cfg rcfg b e)
      | (None, w3) => mkResult None w3 (roundOk cfg rcfg b)
      end
  end.
Proof.
  intros w1. unfold runBench, bind at 1, log_TraceCommand, Cmd_Run, rmDirContents.
  cbn [value final calls]. fold w1.
  rewrite check_call.
  destruct (perform (EvCmdRun (runCmd cfg rcfg b)) w1) as [[e|] w2]; [reflexivity|].
  rewrite check_call.
  destruct (perform (EvRmDirContents (RunConfig.TmpDir rcfg)) w2) as [[e|] w3];
    reflexivity.
Qed.

(** The record of the loop is one of the records [LoopRecord] lists. *)
Lemma runLoop_record cfg rcfg vs w :
  LoopRecord cfg rcfg vs (value (runLoop cfg rcfg vs w)) (calls (runLoop cfg rcfg vs w)).
Proof.
  revert w. induction vs as [|b bs IH]; intros w.
  - constructor.
  - rewrite runLoop_cons. unfold check, check_with, bind.
    rewrite runBench_cases. cbv zeta.
    destruct (perform (EvCmdRun (runCmd cfg rcfg b)) _) as [[e|] w2].
    + apply LoopFailed.
    + destruct (perform (EvRmDirContents (RunConfig.TmpDir rcfg)) w2) as [[e|] w3].
      * apply LoopPurgeFailed.
      * apply (LoopNext cfg rcfg b bs _ _ (IH w3)).
Qed.

(** ** Reading records *)

Lemma countIf_app p t1 t2 : countIf p (t1 ++ t2) = countIf p t1 + countIf p t2.
Proof. induction t1 as [|c t1 IH]; cbn; [reflexivity | rewrite IH; lia]. Qed.

Lemma started_app t1 t2 : started (t1 ++ t2) = started t1 ++ started t2.
Proof. apply omap_app. Qed.

Lemma started_roundOk cfg rcfg b t :
  started (roundOk cfg rcfg b ++ t) = runCmd cfg rcfg b :: started t.
Proof. reflexivity. Qed.

Lemma isPurge_refl dir o : isPurge dir (EvRmDirContents dir, o) = true.
Proof. unfold isPurge; cbn. apply bool_decide_eq_true_2. reflexivity. Qed.

Lemma roundOk_succeeded cfg rcfg b : Forall succeeded (roundOk cfg rcfg b).
Proof. repeat constructor. Qed.

(** ** What every record of the loop satisfies *)

Lemma LoopRecord_discipline cfg rcfg vs r t :
  LoopRecord cfg rcfg vs r t →
  purgeDiscipline (RunConfig.TmpDir rcfg) t = true.
Proof.
  induction 1 as [|b bs r t _ IH| |]; cbn [purgeDiscipline roundOk roundFailed
    roundPurgeFailed app traced]; rewrite ?isPurge_refl; cbn; auto.
Qed.

Lemma LoopRecord_purges cfg rcfg vs r t :
  LoopRecord cfg rcfg vs r t →
  purges (RunConfig.TmpDir rcfg) t = countIf exitedOk t.
Proof.
  unfold purges.
  induction 1 as [|b bs r t _ IH| |]; cbn [countIf roundOk roundFailed
    roundPurgeFailed app traced exitedOk]; rewrite ?isPurge_refl; cbn; auto.
Qed.

(** Every process of the loop is the process of one of the variants. *)
Lemma LoopRecord_started cfg rcfg vs r t :
  LoopRecord cfg rcfg vs r t →
  Forall (λ cmd, ∃ b, b ∈ vs ∧ cmd = runCmd cfg rcfg b) (started t).
Proof.
  induction 1 as [|b bs r t _ IH|b bs e|b bs e].
  - constructor.
  - rewrite started_roundOk. constructor.
    + exists b. split; [left | reflexivity].
    + eapply Forall_impl; [exact IH|].
      intros cmd (b' & Hin & ->). exists b'. split; [right; exact Hin | reflexivity].
  - repeat constructor. exists b. split; [left | reflexivity].
  - repeat constructor. exists b. split; [left | reflexivity].
Qed.

Lemma LoopRecord_nonempty cfg rcfg b bs r t :
  LoopRecord cfg rcfg (b :: bs) r t → 1 ≤ invocations t.
Proof. inversion 1; subst; cbn; lia. Qed.

Lemma LoopRecord_stops cfg rcfg vs r t :
  LoopRecord cfg rcfg vs r t → stopsAtFirstFailure cfg rcfg vs r t.
Proof.
  induction 1 as [|b bs r t _ IH|b bs e|b bs e].
  - repeat split; constructor.
  - destruct r as [e|]; cbn in IH |- *.
    + destruct IH as (k & b' & pre & c & Hk & -> & Hpre & Hc & Hev & Hst & Hn).
      exists (S k), b', (roundOk cfg rcfg b ++ pre), c.
      assert (Forall succeeded (roundOk cfg rcfg b ++ pre)) as Hall
        by (apply Forall_app; split; [apply roundOk_succeeded | exact Hpre]).
      assert (started (roundOk cfg rcfg b ++ pre ++ [c]) =
              runCmd cfg rcfg <$> take (S (S k)) (b :: bs)) as Hst'
        by (rewrite started_roundOk, Hst; reflexivity).
      assert (invocations (roundOk cfg rcfg b ++ pre ++ [c]) = S (S k)) as Hn'
        by (unfold invocations in *; rewrite started_roundOk; cbn; rewrite Hn; reflexivity).
      split_and!; done.
    + destruct IH as (Hall & Hst & Hn).
      assert (started (roundOk cfg rcfg b ++ t) = runCmd cfg rcfg <$> b :: bs) as Hst'
        by (rewrite started_roundOk, Hst; reflexivity).
      assert (invocations (roundOk cfg rcfg b ++ t) = length (b :: bs)) as Hn'
        by (unfold invocations in *; rewrite started_roundOk; cbn; rewrite Hn; reflexivity).
      assert (Forall succeeded (roundOk cfg rcfg b ++ t)) as Hall'
        by (apply Forall_app; split; [apply roundOk_succeeded | exact Hall]).
      split_and!; done.
  - exists 0, b, [traced cfg rcfg b], (EvCmdRun (runCmd cfg rcfg b), Some e).
    split_and!; try done; [repeat constructor | left; reflexivity].
  - exists 0, b, [traced cfg rcfg b; (EvCmdRun (runCmd cfg rcfg b), None)],
      (EvRmDirContents (RunConfig.TmpDir rcfg), Some e).
    split_and!; try done; [repeat constructor | right; reflexivity].
Qed.

(** A purge that fails ends the record. *)
Lemma LoopRecord_purge_failure cfg rcfg vs r t pre e post :
  LoopRecord cfg rcfg vs r t →
  t = pre ++ (EvRmDirContents (RunConfig.TmpDir rcfg), Some e) :: post →
  post = [] ∧ r = Some e ∧
  ∃ (k : nat) (b : string),
    vs !! k = Some b ∧
    last pre = Some (EvCmdRun (runCmd cfg rcfg b), None) ∧
    started pre = runCmd cfg rcfg <$> take (S k) vs ∧
    invocations t = S k.
Proof.
  intros HR. revert pre. induction HR as [|b bs r t _ IH|b bs e'|b bs e']; intros pre Ht.
  - destruct pre; discriminate.
  - destruct pre as [|p1 [|p2 [|p3 pre]]]; try discriminate.
    injection Ht as <- <- <- Ht.
    destruct (IH pre Ht) as (Hpost & Hr & k & b' & Hk & Hl & Hst & Hn).
    split; [exact Hpost|]. split; [exact Hr|].
    exists (S k), b'. split_and!.
    + exact Hk.
    + destruct pre as [|q pre]; [discriminate|]. exact Hl.
    + change (runCmd cfg rcfg b :: started pre =
              runCmd cfg rcfg b :: (runCmd cfg rcfg <$> take (S k) bs)).
      rewrite Hst. reflexivity.
    + change (S (invocations t) = S (S k)). rewrite Hn. reflexivity.
  - destruct pre as [|p1 [|p2 [|p3 pre]]]; discriminate.
  - destruct pre as [|p1 [|p2 [|p3 pre]]]; try discriminate.
    + injection Ht as <- <- <- <-.
      split; [reflexivity|]. split; [reflexivity|].
      exists 0, b. split_and!; reflexivity.
    + destruct pre; discriminate.
Qed.

(** ** The steps of [Build] *)

(** A run of checked calls stops at the first one that fails. *)
Lemma forRange_call_record (evs : list Event) w :
  match value (forRange evs call w) with
  | None => calls (forRange evs call w) = ok <$> evs
  | Some e =>
      ∃ (k : nat) (ev : Event),
        evs !! k = Some ev ∧
        calls (forRange evs call w) = (ok <$> take k evs) ++ [(ev, Some e)]
  end.
Proof.
  revert w. induction evs as [|ev evs IH]; intros w; [reflexivity|].
  cbn [forRange]. rewrite check_call.
  destruct (perform ev w) as [[e|] w']; cbn [value calls].
  - exists 0, ev. split; reflexivity.
  - specialize (IH w'). destruct (value (forRange evs call w')) as [e|].
    + destruct IH as (k & ev' & Hk & ->). exists (S k), ev'. split; [exact Hk | reflexivity].
    + rewrite IH. reflexivity.
Qed.

Lemma buildSteps_plan cfg bcfg :
  buildSteps cfg bcfg = forRange (laterSteps cfg bcfg) call.
Proof. reflexivity. Qed.

(** The deferred cleanup: the value of the body is kept, one call is
    added at the end, and what that call returned is dropped. *)
Lemma defer_bazelClean (body : M (option error)) bcfg w :
  value (defer (bazelClean bcfg) body w) = value (body w) ∧
  calls (defer (bazelClean bcfg) body w) =
    calls (body w) ++ [(cleanup bcfg, (perform (cleanup bcfg) (final (body w))).1)].
Proof. split; reflexivity. Qed.

(** The records [Build] can leave: it stopped at the install of
    bazelisk, before the cleanup was registered; or it stopped at a
    later step and the cleanup ran; or all steps went through and the
    cleanup ran. *)
Lemma Build_record cfg bcfg w :
  let r := Build cfg bcfg w in
  (∃ e, value r = Some ("error building bazelisk: " +:+ e) ∧
        calls r = [(bazelisk cfg, Some e)]) ∨
  (∃ k ev e o, laterSteps cfg bcfg !! k = Some ev ∧
        value r = Some e ∧
        calls r = ok (bazelisk cfg) :: (ok <$> take k (laterSteps cfg bcfg)) ++
                  [(ev, Some e); (cleanup bcfg, o)]) ∨
  (∃ o, value r = None ∧
        calls r = ok (bazelisk cfg) :: (ok <$> laterSteps cfg bcfg) ++ [(cleanup bcfg, o)]).
Proof.
  intros r. subst r. unfold Build, Go_Do. rewrite check_with_call.
  fold (bazelisk cfg).
  destruct (perform (bazelisk cfg) w) as [[e|] w1]; cbn [value calls].
  - left. exists e. split; reflexivity.
  - right.
    destruct (defer_bazelClean (buildSteps cfg bcfg) bcfg w1) as [-> ->].
    rewrite buildSteps_plan.
    pose proof (forRange_call_record (laterSteps cfg bcfg) w1) as Hrec.
    destruct (value (forRange (laterSteps cfg bcfg) call w1)) as [e|].
    + left. destruct Hrec as (k & ev & Hk & ->). eexists k, ev, e, _.
      split; [exact Hk|]. split; [reflexivity|].
      rewrite <- app_assoc. reflexivity.
    + right. eexists. rewrite Hrec. split; reflexivity.
Qed.

(** No step of [Build] is the cleanup. *)
Lemma buildPlan_not_cleanup cfg bcfg :
  Forall (λ ev, ev ≠ cleanup bcfg) (buildPlan cfg bcfg).
Proof. repeat constructor; discriminate. Qed.

Lemma isCall_other ev ev' o : ev ≠ ev' → isCall ev' (ev, o) = false.
Proof. intros Hne. apply bool_decide_eq_false_2. exact Hne. Qed.

Lemma isCall_same ev o : isCall ev (ev, o) = true.
Proof. apply bool_decide_eq_true_2. reflexivity. Qed.

(** A record whose calls are all steps holds no cleanup, and reading
    the steps off it gives it back; with the cleanup at its end it
    holds one. *)
Lemma steps_only bcfg (t : list Call) :
  Forall (λ c : Call, c.1 ≠ cleanup bcfg) t →
  stepsOf bcfg t = t ∧ occurrences (cleanup bcfg) t = 0.
Proof.
  unfold stepsOf, occurrences.
  induction 1 as [|[ev o] t Hne _ [IHs IHo]]; [split; reflexivity|].
  cbn [List.filter countIf]. cbn in Hne.
  rewrite (isCall_other _ _ _ Hne). cbn. rewrite IHs, IHo. split; reflexivity.
Qed.

Lemma steps_then_cleanup bcfg (t : list Call) o :
  Forall (λ c : Call, c.1 ≠ cleanup bcfg) t →
  stepsOf bcfg (t ++ [(cleanup bcfg, o)]) = t ∧
  occurrences (cleanup bcfg) (t ++ [(cleanup bcfg, o)]) = 1.
Proof.
  intros Ht. destruct (steps_only bcfg t Ht) as [Hs Ho].
  unfold stepsOf, occurrences in *.
  rewrite List.filter_app, countIf_app, Hs, Ho. cbn.
  rewrite isCall_same. cbn. rewrite app_nil_r. split; reflexivity.
Qed.

(** Closes the routine goals about an explicit record. *)
Ltac record_goal :=
  first [ done
        | lia
        | eexists; split; [reflexivity | eexists; reflexivity]
        | eexists; reflexivity
        | case_decide;
          first [ lia | done | split; [reflexivity | eexists; reflexivity] ]
        | repeat constructor; done ].

(** C2, as amended.  [Build] has seven steps.  When it stops at step
    [i], the calls it made other than the cleanup are the first [i]
    steps of the plan, the last of them the one that failed.  The
    cleanup ([bazel clean --expunge] in the source directory) runs
    exactly once, as the last call, when all seven steps succeed and
    when step [i] fails for [2 ≤ i ≤ 7]; when step 1, the install of
    bazelisk, fails, [Build] returns before the cleanup is registered
    and the cleanup does not run. *)
Theorem Build_cleanup_once_after_bazelisk cfg bcfg w :
  let r := Build cfg bcfg w in
  let steps := stepsOf bcfg (calls r) in
  let i := length steps in
  steps.*1 = take i (buildPlan cfg bcfg) ∧
  match value r with
  | None =>
      i = 7 ∧ Forall succeeded steps ∧
      occurrences (cleanup bcfg) (calls r) = 1 ∧
      ∃ o, calls r = steps ++ [(cleanup bcfg, o)]
  | Some e =>
      1 ≤ i ≤ 7 ∧
      Forall succeeded (take (i - 1) steps) ∧
      (∃ c, last steps = Some c ∧ is_Some c.2) ∧
      if decide (i = 1)
      then occurrences (cleanup bcfg) (calls r) = 0 ∧ calls r = steps
      else occurrences (cleanup bcfg) (calls r) = 1 ∧
           ∃ o, calls r = steps ++ [(cleanup bcfg, o)]
  end.
Proof.
  cbv zeta.
  pose proof (buildPlan_not_cleanup cfg bcfg) as Hplan.
  destruct (Build_record cfg bcfg w)
    as [(e & -> & ->) | [(k & ev & e & o & Hk & -> & ->) | (o & -> & ->)]].
  - match goal with |- context [stepsOf bcfg ?T] =>
      destruct (steps_only bcfg T) as [-> ->]
    end.
    { constructor; [|constructor]. apply (Forall_inv Hplan). }
    cbn. split_and!; record_goal.
  - assert (k < 6) as Hlt by (apply lookup_lt_Some in Hk; exact Hk).
    assert (∀ (x a b : Call) l, x :: l ++ [a; b] = (x :: l ++ [a]) ++ [b]) as Hsplit
      by (intros; cbn; rewrite <- app_assoc; reflexivity).
    rewrite Hsplit. clear Hsplit.
    match goal with |- context [stepsOf bcfg (?T ++ [(cleanup bcfg, o)])] =>
      destruct (steps_then_cleanup bcfg T o) as [-> ->]
    end.
    { inversion Hplan as [|? ? Hb Hl]; subst.
      constructor; [exact Hb|]. apply Forall_app. split.
      - apply Forall_fmap. apply Forall_take. exact Hl.
      - constructor; [|constructor]. cbn.
        eapply Forall_forall in Hl; [exact Hl|].
        apply list_elem_of_lookup. exists k. exact Hk. }
    do 6 (destruct k as [|k];
          [cbn in Hk; injection Hk as <-; cbn; split_and!; record_goal |]).
    lia.
  - change (ok (bazelisk cfg) :: (ok <$> laterSteps cfg bcfg) ++ [(cleanup bcfg, o)])
      with ((ok <$> buildPlan cfg bcfg) ++ [(cleanup bcfg, o)]).
    match goal with |- context [stepsOf bcfg (?T ++ [(cleanup bcfg, o)])] =>
      destruct (steps_then_cleanup bcfg T o) as [-> ->]
    end.
    { apply Forall_fmap. exact Hplan. }
    cbn. split_and!; record_goal.
Qed.

(** What [Build] returns is decided by its steps alone: when every
    step went through it returns [nil], whatever the cleanup returned. *)
Lemma Build_value_of_steps cfg bcfg w :
  Forall succeeded (stepsOf bcfg (calls (Build cfg bcfg w))) →
  value (Build cfg bcfg w) = None.
Proof.
  pose proof (buildPlan_not_cleanup cfg bcfg) as Hplan.
  destruct (Build_record cfg bcfg w)
    as [(e & -> & ->) | [(k & ev & e & o & Hk & -> & ->) | (o & -> & ->)]];
    [| |reflexivity].
  - match goal with |- context [stepsOf bcfg ?T] =>
      destruct (steps_only bcfg T) as [-> _]
    end.
    { constructor; [|constructor]. apply (Forall_inv Hplan). }
    intros Hs. apply Forall_inv in Hs. discriminate Hs.
  - assert (∀ (x a b : Call) l, x :: l ++ [a; b] = (x :: l ++ [a]) ++ [b]) as Hsplit
      by (intros; cbn; rewrite <- app_assoc; reflexivity).
    rewrite Hsplit. clear Hsplit.
    match goal with |- context [stepsOf bcfg (?T ++ [(cleanup bcfg, o)])] =>
      destruct (steps_then_cleanup bcfg T o) as [-> _]
    end.
    { inversion Hplan as [|? ? Hb Hl]; subst.
      constructor; [exact Hb|]. apply Forall_app. split.
      - apply Forall_fmap. apply Forall_take. exact Hl.
      - constructor; [|constructor]. cbn.
        eapply Forall_forall in Hl; [exact Hl|].
        apply list_elem_of_lookup. exists k. exact Hk. }
    intros Hs. apply Forall_cons in Hs as [_ Hs].
    apply Forall_app in Hs as [_ Hs]. apply Forall_inv in Hs. discriminate Hs.
Qed.

(** ** The arguments of a variant's process *)

Lemma runArgs_order rcfg b :
  runArgs rcfg b =
  RunConfig.Args rcfg ++
  ["-bench"; b] ++
  ["-cockroachdb-bin"; filepath_Join [RunConfig.BinDir rcfg; "cockroach"];
   "-tmp"; RunConfig.TmpDir rcfg] ++
  (if RunConfig.Short rcfg then ["-short"] else []).
Proof.
  unfold runArgs. destruct (RunConfig.Short rcfg).
  - rewrite <- app_assoc. reflexivity.
  - reflexivity.
Qed.

Lemma Run_started cfg rcfg w :
  Forall (λ cmd, ∃ b, b ∈ variants ∧ cmd = runCmd cfg rcfg b)
         (started (calls (Run cfg rcfg w))).
Proof. apply (LoopRecord_started cfg rcfg variants _ _ (runLoop_record cfg rcfg variants w)). Qed.

Lemma LoopRecord_purges_all cfg rcfg vs r t :
  LoopRecord cfg rcfg vs r t → r = None →
  purges (RunConfig.TmpDir rcfg) t = length vs.
Proof.
  unfold purges.
  induction 1 as [|b bs r t _ IH| |]; intros Hr; try discriminate; [reflexivity|].
  cbn [countIf roundOk app traced]. rewrite isPurge_refl. cbn. rewrite (IH Hr). reflexivity.
Qed.

(** ** The stages *)

(** C5.  [CheckPrerequisites] makes no call and leaves the world as it
    found it; it returns no error exactly when the architecture is
    arm64 or amd64, and the error "requires amd64 or arm64" on every
    other architecture. *)
Theorem CheckPrerequisites_pure w :
  calls (CheckPrerequisites w) = [] ∧
  final (CheckPrerequisites w) = w ∧
  (value (CheckPrerequisites w) = None ↔ GOARCH = "arm64" ∨ GOARCH = "amd64") ∧
  (is_Some (value (CheckPrerequisites w)) ↔ GOARCH ≠ "arm64" ∧ GOARCH ≠ "amd64") ∧
  (value (CheckPrerequisites w) = None ∨
   value (CheckPrerequisites w) = Some "requires amd64 or arm64").
Proof.
  unfold CheckPrerequisites.
  destruct (String.eqb_spec GOARCH "arm64") as [Harm|Harm];
    destruct (String.eqb_spec GOARCH "amd64") as [Hamd|Hamd]; cbn;
    (split_and!; [reflexivity | reflexivity | | | auto]);
    rewrite ?is_Some_alt; intuition congruence.
Qed.

(** C1, as amended.  In the loop of [Run], a variant whose process
    exits without error is directly followed by the purge of [TmpDir],
    before the next variant and before [Run] returns; a variant whose
    process fails is followed by nothing: [Run] returns without
    purging.  So the purges are as many as the processes that exited
    without error, and as many as the variants when [Run] returns
    [nil]. *)
Theorem Run_purges_after_each_successful_variant cfg rcfg vs w :
  let r := runLoop cfg rcfg vs w in
  purgeDiscipline (RunConfig.TmpDir rcfg) (calls r) = true ∧
  purges (RunConfig.TmpDir rcfg) (calls r) = countIf exitedOk (calls r) ∧
  match value r with
  | None => purges (RunConfig.TmpDir rcfg) (calls r) = length vs
  | Some _ => purges (RunConfig.TmpDir rcfg) (calls r) ≤ invocations (calls r)
  end.
Proof.
  intros r. pose proof (runLoop_record cfg rcfg vs w) as HR. fold r in HR.
  split_and!.
  - exact (LoopRecord_discipline _ _ _ _ _ HR).
  - exact (LoopRecord_purges _ _ _ _ _ HR).
  - destruct (value r) as [e|] eqn:Hv.
    + rewrite (LoopRecord_purges _ _ _ _ _ HR). unfold invocations, started.
      clear. induction (calls r) as [|[[] []] t IH]; cbn in *; lia.
    + exact (LoopRecord_purges_all _ _ _ _ _ HR eq_refl).
Qed.

(** C3.  The loop of [Run] stops at the first call that fails and
    returns its error.  Over [M] variants: when [Run] returns [nil],
    every call succeeded and the process was started [M] times, once
    per variant, in order.  When it returns an error [e], the variant
    [k + 1] is the first to fail: every earlier call succeeded, the
    last call (the process of that variant, or the purge that ends its
    round) returned [e], and the process was started exactly [k + 1]
    times, for the first [k + 1] variants; no later variant is
    started. *)
Theorem Run_stops_at_first_failure cfg rcfg vs w :
  let r := runLoop cfg rcfg vs w in
  match value r with
  | None =>
      Forall succeeded (calls r) ∧
      started (calls r) = runCmd cfg rcfg <$> vs ∧
      invocations (calls r) = length vs
  | Some e =>
      ∃ (k : nat) (b : string) (pre : list Call) (c : Call),
        vs !! k = Some b ∧
        calls r = pre ++ [c] ∧ Forall succeeded pre ∧ c.2 = Some e ∧
        (c.1 = EvCmdRun (runCmd cfg rcfg b) ∨
         c.1 = EvRmDirContents (RunConfig.TmpDir rcfg)) ∧
        started (calls r) = runCmd cfg rcfg <$> take (S k) vs ∧
        invocations (calls r) = S k
  end.
Proof.
  intros r. exact (LoopRecord_stops _ _ _ _ _ (runLoop_record cfg rcfg vs w)).
Qed.

(** C4, as amended.  The arguments of a variant's process are, in this
    order: the base arguments ([RunConfig.Args]), the variant flag
    ([-bench] and the variant), the resolved paths ([-cockroachdb-bin]
    with the artifact, [-tmp] with the scratch directory), and last the
    short-mode flag ([-short]), present exactly when [Short] is set.
    Every process [Run] starts has the driver's path followed by these
    arguments, for one of the variants. *)
Theorem Run_argument_order cfg rcfg w :
  (∀ b, runArgs rcfg b =
        RunConfig.Args rcfg ++
        ["-bench"; b] ++
        ["-cockroachdb-bin"; filepath_Join [RunConfig.BinDir rcfg; "cockroach"];
         "-tmp"; RunConfig.TmpDir rcfg] ++
        (if RunConfig.Short rcfg then ["-short"] else [])) ∧
  Forall (λ cmd, ∃ b, b ∈ variants ∧
                      Cmd.Args cmd = Cmd.Path cmd :: runArgs rcfg b)
         (started (calls (Run cfg rcfg w))).
Proof.
  split; [apply runArgs_order|].
  eapply Forall_impl; [apply Run_started|].
  intros cmd (b & Hb & ->). exists b. split; [exact Hb | reflexivity].
Qed.

(** C7.  Every process [Run] starts (there is at least one) has its
    environment set to the collapsed exec environment of the
    configuration and to nothing else, and both its standard output
    and its standard error connected to [RunConfig.Results]. *)
Theorem Run_process_environment cfg rcfg w :
  1 ≤ invocations (calls (Run cfg rcfg w)) ∧
  Forall (λ cmd,
            Cmd.Env cmd = Some (Env.Collapse (ConfigEnv.Env (Config.ExecEnv cfg))) ∧
            Cmd.Stdout cmd = Some (RunConfig.Results rcfg) ∧
            Cmd.Stderr cmd = Some (RunConfig.Results rcfg))
         (started (calls (Run cfg rcfg w))).
Proof.
  split.
  - exact (LoopRecord_nonempty _ _ _ _ _ _ (runLoop_record cfg rcfg variants w)).
  - eapply Forall_impl; [apply Run_started|].
    intros cmd (b & _ & ->). split_and!; reflexivity.
Qed.

(** C9.  [Run] ranges over the six variants kv0/nodes=1, kv50/nodes=1,
    kv95/nodes=1, kv0/nodes=3, kv50/nodes=3, kv95/nodes=3, in this
    order: when it returns [nil] it has started exactly these six
    processes, one per variant, in this order; when it returns an error
    it has started the processes of a non-empty beginning of the list
    (of all six when it is the last purge that failed). *)
Theorem Run_six_variants cfg rcfg w :
  let r := Run cfg rcfg w in
  let six := ["kv0/nodes=1"; "kv50/nodes=1"; "kv95/nodes=1";
              "kv0/nodes=3"; "kv50/nodes=3"; "kv95/nodes=3"] in
  match value r with
  | None =>
      started (calls r) = runCmd cfg rcfg <$> six ∧ invocations (calls r) = 6
  | Some _ =>
      ∃ k, k < 6 ∧ started (calls r) = runCmd cfg rcfg <$> take (S k) six ∧
           invocations (calls r) = S k
  end.
Proof.
  intros r six.
  pose proof (LoopRecord_stops _ _ _ _ _ (runLoop_record cfg rcfg variants w)) as Hs.
  change (runLoop cfg rcfg variants w) with r in Hs.
  unfold stopsAtFirstFailure in Hs. destruct (value r) as [e|].
  - destruct Hs as (k & b & pre & c & Hk & _ & _ & _ & _ & Hst & Hn).
    exists k. split_and!; [|exact Hst|exact Hn].
    apply lookup_lt_Some in Hk. exact Hk.
  - destruct Hs as (_ & Hst & Hn). split; [exact Hst | exact Hn].
Qed.

(** C6.  With the same [BinDir] for both stages: a [Build] that
    returns [nil] has, as its step 4, built [pkg/cmd/cockroach-short]
    into [BinDir] and, as its step 5, copied [BinDir/cockroach-short]
    to [BinDir/cockroach]; and every process [Run] starts is given the
    artifact as [BinDir/cockroach], the destination of that copy, after
    [-cockroachdb-bin], in an argument list that [Run] extends with
    nothing else but the variant, the scratch directory and the
    short-mode flag. *)
Theorem artifact_name_agrees cfg bcfg rcfg wb wr :
  BuildConfig.BinDir bcfg = RunConfig.BinDir rcfg →
  value (Build cfg bcfg wb) = None →
  let artifact := filepath_Join [RunConfig.BinDir rcfg; "cockroach"] in
  calls (Build cfg bcfg wb) !! 3 =
    Some (ok (EvGoBuildPath (GoTool cfg)
                (filepath_Join [BuildConfig.SrcDir bcfg; "pkg/cmd/cockroach-short"])
                (RunConfig.BinDir rcfg))) ∧
  calls (Build cfg bcfg wb) !! 4 =
    Some (ok (EvCopyFile artifact
                (filepath_Join [RunConfig.BinDir rcfg; "cockroach-short"]))) ∧
  Forall (λ cmd, ∃ b, b ∈ variants ∧
            Cmd.Args cmd =
              Cmd.Path cmd :: RunConfig.Args rcfg ++
              ["-bench"; b; "-cockroachdb-bin"; artifact; "-tmp"; RunConfig.TmpDir rcfg] ++
              (if RunConfig.Short rcfg then ["-short"] else []))
         (started (calls (Run cfg rcfg wr))).
Proof.
  intros Hbin Hok artifact. rewrite <- Hbin. split_and!.
  - destruct (Build_record cfg bcfg wb)
      as [(e & Hv & _) | [(k & ev & e & o & _ & Hv & _) | (o & _ & ->)]];
      [congruence | congruence | reflexivity].
  - subst artifact. rewrite <- Hbin.
    destruct (Build_record cfg bcfg wb)
      as [(e & Hv & _) | [(k & ev & e & o & _ & Hv & _) | (o & _ & ->)]];
      [congruence | congruence | reflexivity].
  - eapply Forall_impl; [apply Run_started|].
    intros cmd (b & Hb & ->). exists b. split; [exact Hb|].
    cbn [runCmd Cmd.with_Stderr Cmd.with_Stdout Cmd.with_Env exec_Command
         Cmd.Args Cmd.Path].
    rewrite runArgs_order. reflexivity.
Qed.

(** C10.  A purge of [TmpDir] that fails is the last call of [Run]:
    [Run] returns the error of the purge, and the processes it started
    are those of the variants up to the one just run, whose process had
    exited without error; no later variant is started.  [Build], in
    contrast, returns [nil] whenever all its steps went through,
    whatever its cleanup returned. *)
Theorem Run_purge_failure_is_fatal cfg rcfg vs w pre e post :
  calls (runLoop cfg rcfg vs w) =
    pre ++ (EvRmDirContents (RunConfig.TmpDir rcfg), Some e) :: post →
  (post = [] ∧
   value (runLoop cfg rcfg vs w) = Some e ∧
   ∃ (k : nat) (b : string),
     vs !! k = Some b ∧
     last pre = Some (EvCmdRun (runCmd cfg rcfg b), None) ∧
     started pre = runCmd cfg rcfg <$> take (S k) vs ∧
     invocations (calls (runLoop cfg rcfg vs w)) = S k) ∧
  (∀ bcfg wb,
     Forall succeeded (stepsOf bcfg (calls (Build cfg bcfg wb))) →
     value (Build cfg bcfg wb) = None).
Proof.
  intros Ht. split.
  - exact (LoopRecord_purge_failure _ _ _ _ _ _ _ _ (runLoop_record cfg rcfg vs w) Ht).
  - intros bcfg wb. apply Build_value_of_steps.
Qed.

End Properties.

(** * The environment overlay *)

Section Overlay.

Lemma resolve_edit ed e :
  Env.resolve (Env.edit ed e) = Env.applyEdit (Env.resolve e) ed.
Proof. unfold Env.resolve, Env.edit; cbn. rewrite foldl_app. reflexivity. Qed.

Lemma resolve_applyEdits eds e :
  Env.resolve (Env.applyEdits eds e) = foldl Env.applyEdit (Env.resolve e) eds.
Proof.
  revert e. induction eds as [|ed eds IH]; intros e; [reflexivity|].
  change (Env.applyEdits (ed :: eds) e) with (Env.applyEdits eds (Env.edit ed e)).
  rewrite IH, resolve_edit. reflexivity.
Qed.

(** What the spec says reading a key gives after each kind of edit. *)
Lemma Lookup_Prefix name prefix e :
  Env.Lookup name (Env.Prefix name prefix e) =
  Some (prefix +:+ default "" (Env.Lookup name e)).
Proof. unfold Env.Lookup, Env.Prefix. rewrite resolve_edit. apply lookup_insert_eq. Qed.

Lemma Lookup_MustSet k v e :
  Env.Lookup k (Env.edit (Env.EMustSet k v) e) = Some v.
Proof. unfold Env.Lookup. rewrite resolve_edit. apply lookup_insert_eq. Qed.

Lemma Lookup_SetIfAbsent k v e :
  Env.Lookup k (Env.SetIfAbsent k v e) = Some (default v (Env.Lookup k e)).
Proof.
  unfold Env.Lookup, Env.SetIfAbsent. rewrite resolve_edit. cbn.
  destruct (Env.resolve e !! k) as [v'|] eqn:Hk; cbn.
  - exact Hk.
  - apply lookup_insert_eq.
Qed.

(** An edit never changes the base it is made over. *)
Lemma base_applyEdits eds e : Env.base (Env.applyEdits eds e) = Env.base e.
Proof.
  revert e. induction eds as [|ed eds IH]; intros e; [reflexivity|].
  change (Env.applyEdits (ed :: eds) e) with (Env.applyEdits eds (Env.edit ed e)).
  rewrite IH. reflexivity.
Qed.

(** The force-set of [Build] is well formed. *)
Lemma MustSet_var v e :
  Env.MustSet ("GOROOT=" +:+ v) e = Env.edit (Env.EMustSet "GOROOT" v) e.
Proof. reflexivity. Qed.

(** The keys of a collapsed overlay are pairwise distinct. *)
Lemma Collapse_keys_once e : NoDup (map_to_list (Env.resolve e)).*1.
Proof. apply NoDup_fst_map_to_list. Qed.

Lemma buildEnv_edits `{Host} cfg :
  buildEnv cfg =
  Env.applyEdits
    [Env.EPrefix "PATH" (filepath_Join [Config.GoRoot cfg; "bin"] +:+ ":");
     Env.EMustSet "GOROOT" (Config.GoRoot cfg)]
    (ConfigEnv.Env (Config.BuildEnv cfg)).
Proof. reflexivity. Qed.

(** The two bazel processes of [Build] are handed the same environment. *)
Lemma Build_bazel_same_env `{Host} cfg bcfg :
  Cmd.Env (genCodeCmd cfg bcfg) = Some (Env.Collapse (buildEnv cfg)) ∧
  Cmd.Env (genCgoCmd cfg bcfg) = Some (Env.Collapse (buildEnv cfg)).
Proof. split; reflexivity. Qed.

(** ** The order of the keys *)

#[global] Instance keyLe_total : Total Env.keyLe.
Proof.
  intros a b. unfold Env.keyLe.
  destruct (String.leb_total a b) as [-> | ->]; [left | right]; exact I.
Qed.

#[global] Instance keyLe_antisym : AntiSymm (=) Env.keyLe.
Proof.
  intros a b Hab Hba. apply String.leb_antisym; apply Is_true_true; assumption.
Qed.

#[global] Instance keyLe_trans : Transitive Env.keyLe.
Proof.
  intros a b c. unfold Env.keyLe, String.leb.
  destruct (String.compare a b) eqn:Hab; [| |intros []];
    (destruct (String.compare b c) eqn:Hbc; [| |intros _ []]); intros _ _.
  - apply String_as_OT.cmp_eq in Hab. subst b. rewrite Hbc. exact I.
  - apply String_as_OT.cmp_eq in Hab. subst b. rewrite Hbc. exact I.
  - apply String_as_OT.cmp_eq in Hbc. subst c. rewrite Hab. exact I.
  - apply String_as_OT.cmp_lt in Hab, Hbc.
    pose proof (String_as_OT.lt_trans _ _ _ Hab Hbc) as Hac.
    apply String_as_OT.cmp_lt in Hac. unfold String_as_OT.cmp in Hac.
    rewrite Hac. exact I.
Qed.


Lemma elem_of_fst_map_to_list (m : gmap string string) k :
  k ∈ (map_to_list m).*1 ↔ is_Some (m !! k).
Proof.
  rewrite list_elem_of_fmap. split.
  - intros ([k' v] & -> & Hin). apply elem_of_map_to_list in Hin. exists v. exact Hin.
  - intros [v Hv]. exists (k, v). split; [reflexivity|].
    apply elem_of_map_to_list. exact Hv.
Qed.




End Overlay.

(** * The stages on the scripted world *)

(** C1, the claim as stated fails: over the variants a, b, c with the
    process of b failing, [Run] returns the error of b having started
    two processes, and the scratch directory was purged once, after a,
    not twice. *)
Lemma Run_failed_variant_not_purged :
  let rcfg := demoRun false in
  let r := runLoop demoConfig rcfg ["a"; "b"; "c"] [None; None; Some "exit status 1"] in
  value r = Some "exit status 1" ∧
  started (calls r) = [runCmd demoConfig rcfg "a"; runCmd demoConfig rcfg "b"] ∧
  last (calls r) = Some (EvCmdRun (runCmd demoConfig rcfg "b"), Some "exit status 1") ∧
  purges (RunConfig.TmpDir rcfg) (calls r) = 1 ∧
  purges (RunConfig.TmpDir rcfg) (calls r) ≠ 2.
Proof. cbv zeta. split_and!; [reflexivity .. | vm_compute; discriminate]. Qed.

(** The same on [Run] itself, with its own variants: the second one,
    kv50/nodes=1, fails and no purge follows it. *)
Example Run_second_variant_fails :
  let rcfg := demoRun false in
  let r := Run demoConfig rcfg [None; None; Some "exit status 1"] in
  value r = Some "exit status 1" ∧
  calls r =
    roundOk demoConfig rcfg "kv0/nodes=1" ++
    roundFailed demoConfig rcfg "kv50/nodes=1" "exit status 1" ∧
  invocations (calls r) = 2 ∧
  purges (RunConfig.TmpDir rcfg) (calls r) = 1.
Proof. cbv zeta. split_and!; reflexivity. Qed.

(** A run in which every call succeeds: six processes, six purges. *)
Example Run_all_succeed :
  let rcfg := demoRun false in
  let r := Run demoConfig rcfg [] in
  value r = None ∧
  invocations (calls r) = 6 ∧
  purges (RunConfig.TmpDir rcfg) (calls r) = 6 ∧
  flat_map (λ cmd, take 2 (drop 2 (Cmd.Args cmd))) (started (calls r)) =
    flat_map (λ b, ["-bench"; b]) variants.
Proof. cbv zeta. split_and!; reflexivity. Qed.

(** A build in which the second step fails: the cleanup runs, once, and
    the error of the step is what [Build] returns, also when the
    cleanup fails in its turn. *)
Example Build_second_step_fails :
  let r := Build demoConfig demoBuild [None; Some "exit status 1"; Some "exit status 2"] in
  value r = Some "exit status 1" ∧
  calls r = [ok (bazelisk demoConfig);
             (EvCmdRun (genCodeCmd demoConfig demoBuild), Some "exit status 1");
             (cleanup demoBuild, Some "exit status 2")] ∧
  occurrences (cleanup demoBuild) (calls r) = 1.
Proof. cbv zeta. split_and!; reflexivity. Qed.

(** The environment [Build] hands to bazel. *)
Example buildEnv_collapsed :
  Env.Collapse (buildEnv demoConfig) =
  ["GOROOT=/go"; "HOME=/root"; "PATH=/go/bin:/usr/bin"].
Proof. reflexivity. Qed.

(** C2, the claim as stated fails: when the install of bazelisk, the
    first step, fails, [Build] returns its error and the cleanup has not
    run at all. *)
Lemma Build_bazelisk_failure_skips_cleanup :
  let r := Build demoConfig demoBuild [Some "exit status 1"] in
  value r = Some "error building bazelisk: exit status 1" ∧
  calls r = [(bazelisk demoConfig, Some "exit status 1")] ∧
  occurrences (cleanup demoBuild) (calls r) = 0 ∧
  occurrences (cleanup demoBuild) (calls r) ≠ 1.
Proof. cbv zeta. split_and!; [reflexivity .. | vm_compute; discriminate]. Qed.

(** C4, the claim as stated fails: in short mode the flag [-short]
    comes after the resolved paths, at the very end, not between the
    variant flag and the paths. *)
Lemma Run_short_flag_is_last :
  let rcfg := demoRun true in
  runArgs rcfg "kv0/nodes=1" =
    ["-v"; "-bench"; "kv0/nodes=1";
     "-cockroachdb-bin"; "/bin/cockroach"; "-tmp"; "/tmp/crdb"; "-short"] ∧
  specArgs rcfg "kv0/nodes=1" =
    ["-v"; "-bench"; "kv0/nodes=1"; "-short";
     "-cockroachdb-bin"; "/bin/cockroach"; "-tmp"; "/tmp/crdb"] ∧
  Cmd.Args <$> head (started (calls (Run demoConfig rcfg []))) =
    Some ("/bin/cockroachdb-bench" :: runArgs rcfg "kv0/nodes=1") ∧
  runArgs rcfg "kv0/nodes=1" ≠ specArgs rcfg "kv0/nodes=1".
Proof. cbv zeta. split_and!; [reflexivity .. | vm_compute; discriminate]. Qed.

(** C5 on two hosts: amd64 passes, riscv64 does not. *)
Lemma CheckPrerequisites_witness :
  value (@CheckPrerequisites scripted linux_amd64 []) = None ∧
  is_Some (value (@CheckPrerequisites scripted linux_riscv64 [])).
Proof.
  split.
  - apply (proj1 (proj2 (proj2 (@CheckPrerequisites_pure scripted linux_amd64 [])))).
    right. reflexivity.
  - apply (proj1 (proj2 (proj2 (proj2 (@CheckPrerequisites_pure scripted linux_riscv64 []))))).
    split; discriminate.
Defined.

(** C6 on the scripted world: a build in which every call succeeds,
    then a run. *)
Lemma artifact_name_agrees_witness :
  BuildConfig.BinDir demoBuild = RunConfig.BinDir (demoRun false) ∧
  value (Build demoConfig demoBuild []) = None ∧
  calls (Build demoConfig demoBuild []) !! 4 =
    Some (ok (EvCopyFile "/bin/cockroach" "/bin/cockroach-short")) ∧
  Forall (λ cmd, ∃ b, b ∈ variants ∧
            Cmd.Args cmd =
              Cmd.Path cmd :: ["-v"] ++
              ["-bench"; b; "-cockroachdb-bin"; "/bin/cockroach"; "-tmp"; "/tmp/crdb"] ++ [])
         (started (calls (Run demoConfig (demoRun false) []))).
Proof.
  split; [reflexivity|]. split; [reflexivity|].
  exact (proj2 (artifact_name_agrees demoConfig demoBuild (demoRun false) [] []
                  eq_refl eq_refl)).
Defined.


(** C10 on the scripted world: the first process exits without error
    and the purge after it fails; and a build whose seven steps succeed
    and whose cleanup fails. *)
Lemma Run_purge_failure_witness :
  let rcfg := demoRun false in
  let e := "unlinkat /tmp/crdb: permission denied" in
  let r := Run demoConfig rcfg [None; Some e] in
  let steps := [None; None; None; None; None; None; None] in
  (calls r =
     [traced demoConfig rcfg "kv0/nodes=1";
      (EvCmdRun (runCmd demoConfig rcfg "kv0/nodes=1"), None)] ++
     (EvRmDirContents "/tmp/crdb", Some e) :: [] ∧
   value r = Some e) ∧
  (last (calls (Build demoConfig demoBuild (steps ++ [Some "exit status 1"]))) =
     Some (cleanup demoBuild, Some "exit status 1") ∧
   value (Build demoConfig demoBuild (steps ++ [Some "exit status 1"])) = None).
Proof.
  cbv zeta.
  pose proof (Run_purge_failure_is_fatal demoConfig (demoRun false) variants
       [None; Some "unlinkat /tmp/crdb: permission denied"]
       [traced demoConfig (demoRun false) "kv0/nodes=1";
        (EvCmdRun (runCmd demoConfig (demoRun false) "kv0/nodes=1"), None)]
       "unlinkat /tmp/crdb: permission denied" [] eq_refl) as [HRun HBuild].
  split.
  - split; [reflexivity|]. exact (proj1 (proj2 HRun)).
  - split; [reflexivity|]. apply HBuild.
    vm_compute. repeat (constructor; [reflexivity|]). constructor.
Defined.

(** * Further properties of the stages *)

Section Further.
Context `{World} `{Host}.

(** ** What [Run] reads of the configuration *)

Lemma runCmd_exec_env cfg1 cfg2 rcfg b :
  Env.Collapse (ConfigEnv.Env (Config.ExecEnv cfg1)) =
  Env.Collapse (ConfigEnv.Env (Config.ExecEnv cfg2)) →
  runCmd cfg1 rcfg b = runCmd cfg2 rcfg b.
Proof. intros Henv. unfold runCmd. rewrite Henv. reflexivity. Qed.

(** X8.  [Run] reads the configuration through the collapsed exec
    environment only: two configurations whose exec environments
    collapse to the same list give the same calls, the same final world
    and the same value, whatever their toolchain roots and build
    environments are. *)
Theorem Run_reads_exec_env_only cfg1 cfg2 rcfg w :
  Env.Collapse (ConfigEnv.Env (Config.ExecEnv cfg1)) =
  Env.Collapse (ConfigEnv.Env (Config.ExecEnv cfg2)) →
  Run cfg1 rcfg w = Run cfg2 rcfg w.
Proof.
  intros Henv. unfold Run. generalize variants as vs. intros vs. revert w.
  induction vs as [|b vs IH]; intros w; [reflexivity|].
  rewrite !runLoop_cons. unfold check, check_with, bind.
  assert (runBench cfg1 rcfg b w = runBench cfg2 rcfg b w) as ->.
  { unfold runBench. rewrite (runCmd_exec_env cfg1 cfg2 rcfg b Henv). reflexivity. }
  destruct (value (runBench cfg2 rcfg b w)) as [e|]; [reflexivity|].
  rewrite IH. reflexivity.
Qed.

(** ** What surrounds a process of [Run] *)

Lemma LoopRecord_calls cfg rcfg vs r t :
  LoopRecord cfg rcfg vs r t →
  Forall (λ c : Call, ∃ b, b ∈ vs ∧
            (c.1 = EvTraceCommand (runCmd cfg rcfg b) false ∨
             c.1 = EvCmdRun (runCmd cfg rcfg b) ∨
             c.1 = EvRmDirContents (RunConfig.TmpDir rcfg))) t.
Proof.
  induction 1 as [|b bs r t _ IH|b bs e|b bs e].
  - constructor.
  - apply Forall_app. split.
    + repeat constructor; exists b; (split; [left|]); cbn; auto.
    + eapply Forall_impl; [exact IH|].
      intros c (b' & Hin & Hc). exists b'. split; [right; exact Hin | exact Hc].
  - repeat constructor; exists b; (split; [left|]); cbn; auto.
  - repeat constructor; exists b; (split; [left|]); cbn; auto.
Qed.

(** X5.  [Run] makes three kinds of calls and no other: it traces the
    command of one of its variants, it runs the command of one of its
    variants, and it purges [rcfg.TmpDir].  So the only directory it
    purges is the scratch directory, and it never copies a file, calls
    the Go tool or clones. *)
Theorem Run_calls_only cfg rcfg w :
  Forall (λ c : Call, ∃ b, b ∈ variants ∧
            (c.1 = EvTraceCommand (runCmd cfg rcfg b) false ∨
             c.1 = EvCmdRun (runCmd cfg rcfg b) ∨
             c.1 = EvRmDirContents (RunConfig.TmpDir rcfg)))
         (calls (Run cfg rcfg w)).
Proof. exact (LoopRecord_calls _ _ _ _ _ (runLoop_record cfg rcfg variants w)). Qed.

Lemma LoopRecord_process_context cfg rcfg vs r t pre cmd o post :
  LoopRecord cfg rcfg vs r t →
  t = pre ++ (EvCmdRun cmd, o) :: post →
  pre = [(EvTraceCommand cmd false, None)] ∨
  ∃ pre' cmd', pre = pre' ++ [(EvCmdRun cmd', None);
                              (EvRmDirContents (RunConfig.TmpDir rcfg), None);
                              (EvTraceCommand cmd false, None)].
Proof.
  intros HR. revert pre. induction HR as [|b bs r t _ IH|b bs e|b bs e]; intros pre Ht.
  - destruct pre; discriminate.
  - destruct pre as [|p1 [|p2 [|p3 pre]]]; try discriminate.
    + injection Ht as <- <- _ _. left. reflexivity.
    + injection Ht as <- <- <- Ht. right.
      destruct (IH pre Ht) as [-> | (pre' & cmd' & ->)].
      * exists [traced cfg rcfg b], (runCmd cfg rcfg b). reflexivity.
      * exists (roundOk cfg rcfg b ++ pre'), cmd'. reflexivity.
  - destruct pre as [|p1 [|p2 [|p3 pre]]]; try discriminate.
    injection Ht as <- <- _. left. reflexivity.
  - destruct pre as [|p1 [|p2 [|p3 pre]]]; try discriminate.
    + injection Ht as <- <- _ _. left. reflexivity.
    + destruct pre; discriminate.
Qed.

(** X6.  Every process [Run] starts is directly preceded by the trace
    of that very command, not quiet.  The first process has nothing
    else before it; every later one starts on a purged scratch
    directory: before its trace comes a purge of [rcfg.TmpDir] that
    returned no error, itself directly after the previous process,
    which exited without error. *)
Theorem Run_process_context cfg rcfg vs w pre cmd o post :
  calls (runLoop cfg rcfg vs w) = pre ++ (EvCmdRun cmd, o) :: post →
  match started pre with
  | [] => pre = [(EvTraceCommand cmd false, None)]
  | _ :: _ =>
      ∃ pre' cmd', pre = pre' ++ [(EvCmdRun cmd', None);
                                  (EvRmDirContents (RunConfig.TmpDir rcfg), None);
                                  (EvTraceCommand cmd false, None)]
  end.
Proof.
  intros Ht.
  destruct (LoopRecord_process_context _ _ _ _ _ _ _ _ _
              (runLoop_record cfg rcfg vs w) Ht) as [-> | (pre' & cmd' & ->)].
  - reflexivity.
  - rewrite started_app. cbn.
    destruct (started pre' ++ [cmd']) as [|c l] eqn:Hs.
    + destruct (started pre'); discriminate.
    + exists pre', cmd'. reflexivity.
Qed.

(** ** What [Build] returns *)

(** The steps of [Build] read off its record, by the way it went. *)
Lemma Build_steps_record cfg bcfg w :
  let r := Build cfg bcfg w in
  (∃ e, value r = Some ("error building bazelisk: " +:+ e) ∧
        stepsOf bcfg (calls r) = [(bazelisk cfg, Some e)]) ∨
  (∃ k ev e, laterSteps cfg bcfg !! k = Some ev ∧
        value r = Some e ∧
        stepsOf bcfg (calls r) =
          ok (bazelisk cfg) :: (ok <$> take k (laterSteps cfg bcfg)) ++ [(ev, Some e)]) ∨
  (value r = None ∧ stepsOf bcfg (calls r) = ok <$> buildPlan cfg bcfg).
Proof.
  cbv zeta. pose proof (buildPlan_not_cleanup cfg bcfg) as Hplan.
  destruct (Build_record cfg bcfg w)
    as [(e & -> & ->) | [(k & ev & e & o & Hk & -> & ->) | (o & -> & ->)]].
  - left. exists e. split; [reflexivity|].
    match goal with |- stepsOf bcfg ?T = _ => destruct (steps_only bcfg T) as [-> _] end;
      [|reflexivity].
    constructor; [|constructor]. apply (Forall_inv Hplan).
  - right; left. exists k, ev, e. split; [exact Hk|]. split; [reflexivity|].
    assert (∀ (x a b : Call) l, x :: l ++ [a; b] = (x :: l ++ [a]) ++ [b]) as Hsplit
      by (intros; cbn; rewrite <- app_assoc; reflexivity).
    rewrite Hsplit. clear Hsplit.
    match goal with |- stepsOf bcfg (?T ++ _) = _ =>
      destruct (steps_then_cleanup bcfg T o) as [-> _] end; [|reflexivity].
    inversion Hplan as [|? ? Hb Hl]; subst.
    constructor; [exact Hb|]. apply Forall_app. split.
    + apply Forall_fmap. apply Forall_take. exact Hl.
    + constructor; [|constructor]. cbn.
      eapply Forall_forall in Hl; [exact Hl|].
      apply list_elem_of_lookup. exists k. exact Hk.
  - right; right. split; [reflexivity|].
    change (ok (bazelisk cfg) :: (ok <$> laterSteps cfg bcfg) ++ [(cleanup bcfg, o)])
      with ((ok <$> buildPlan cfg bcfg) ++ [(cleanup bcfg, o)]).
    match goal with |- stepsOf bcfg (?T ++ _) = _ =>
      destruct (steps_then_cleanup bcfg T o) as [-> _] end; [|reflexivity].
    apply Forall_fmap. exact Hplan.
Qed.

(** X1.  What [Build] returns is read off the last step it made.  When
    that step returned no error, all seven steps went through and
    [Build] returns [nil].  When it returned the error [e], [Build]
    returns [e] as it is, except for the first step, the install of
    bazelisk, whose error comes back behind the text "error building
    bazelisk: ".  The error of the cleanup is never what [Build]
    returns. *)
Theorem Build_returns_first_error cfg bcfg w :
  let r := Build cfg bcfg w in
  let steps := stepsOf bcfg (calls r) in
  match last steps with
  | Some (_, Some e) =>
      value r = Some (if decide (length steps = 1)
                      then "error building bazelisk: " +:+ e else e) ∧
      ¬ Forall succeeded steps
  | Some (_, None) =>
      value r = None ∧ Forall succeeded steps ∧ length steps = 7
  | None => False
  end.
Proof.
  cbv zeta.
  destruct (Build_steps_record cfg bcfg w)
    as [(e & -> & ->) | [(k & ev & e & Hk & -> & ->) | (-> & ->)]].
  - cbn. split; [reflexivity|].
    intros HF. apply Forall_inv in HF. discriminate HF.
  - rewrite app_comm_cons, last_snoc. split.
    + case_decide as Hlen; [|reflexivity].
      rewrite length_app in Hlen. cbn in Hlen. lia.
    + intros HF. apply Forall_app in HF as [_ HF].
      apply Forall_inv in HF. discriminate HF.
  - cbn. split_and!; [reflexivity | repeat constructor | reflexivity].
Qed.

(** ** The processes of [Build] *)

Lemma Build_started_among cfg bcfg w :
  Forall (λ cmd, cmd ∈ [genCodeCmd cfg bcfg; genCgoCmd cfg bcfg;
                        chmodCmd bcfg; cleanCmd bcfg])
         (started (calls (Build cfg bcfg w))).
Proof.
  destruct (Build_record cfg bcfg w)
    as [(e & _ & ->) | [(k & ev & e & o & Hk & _ & ->) | (o & _ & ->)]].
  - constructor.
  - assert (k < 6) as Hlt by (apply lookup_lt_Some in Hk; exact Hk).
    do 6 (destruct k as [|k];
          [cbn in Hk; injection Hk as <-; cbn;
           repeat (constructor; [set_solver|]); constructor |]).
    lia.
  - cbn. repeat (constructor; [set_solver|]); constructor.
Qed.

(** X2.  Every process [Build] hands an environment to gets the
    collapsed build environment, runs in the source directory and writes
    to the standard output and error of the harness.  The processes it
    starts without an environment of their own, which the launcher then
    gives the ambient one, are the cleanup and [chmod] and no other. *)
Theorem Build_process_environment cfg bcfg w :
  Forall (λ cmd,
            match Cmd.Env cmd with
            | Some env =>
                env = Env.Collapse (buildEnv cfg) ∧
                Cmd.Dir cmd = BuildConfig.SrcDir bcfg ∧
                Cmd.Stdout cmd = Some os_Stdout ∧
                Cmd.Stderr cmd = Some os_Stderr
            | None => cmd = cleanCmd bcfg ∨ cmd = chmodCmd bcfg
            end)
         (started (calls (Build cfg bcfg w))).
Proof.
  eapply Forall_impl; [apply Build_started_among|].
  intros cmd Hin.
  rewrite !elem_of_cons, elem_of_nil in Hin.
  destruct Hin as [-> | [-> | [-> | [-> | []]]]]; cbn; auto.
Qed.

(** X4.  With the same [BinDir] for both stages: a [Build] that returns
    [nil] has, as its step 6, built the benchmark driver from [BenchDir]
    to [BinDir/cockroachdb-bench] and, as its step 7, run [chmod -R 755]
    on that path; and that path is the name [Run] gives [exec.Command]
    for every process it starts, the first entry of the argument vector.
    Which file the launcher runs under that name is not stated. *)
Theorem driver_path_agrees cfg bcfg rcfg wb wr :
  BuildConfig.BinDir bcfg = RunConfig.BinDir rcfg →
  value (Build cfg bcfg wb) = None →
  let driver := filepath_Join [RunConfig.BinDir rcfg; "cockroachdb-bench"] in
  calls (Build cfg bcfg wb) !! 5 =
    Some (ok (EvGoBuildPath (GoTool cfg) (BuildConfig.BenchDir bcfg) driver)) ∧
  (∃ cmd, calls (Build cfg bcfg wb) !! 6 = Some (ok (EvCmdRun cmd)) ∧
          Cmd.Args cmd = ["chmod"; "-R"; "755"; driver]) ∧
  Forall (λ cmd, head (Cmd.Args cmd) = Some driver)
         (started (calls (Run cfg rcfg wr))).
Proof.
  intros Hbin Hok driver. subst driver. rewrite <- Hbin. split_and!.
  - destruct (Build_record cfg bcfg wb)
      as [(e & Hv & _) | [(k & ev & e & o & _ & Hv & _) | (o & _ & ->)]];
      [congruence | congruence | reflexivity].
  - destruct (Build_record cfg bcfg wb)
      as [(e & Hv & _) | [(k & ev & e & o & _ & Hv & _) | (o & _ & ->)]];
      [congruence | congruence |].
    exists (chmodCmd bcfg). split; reflexivity.
  - rewrite Hbin. eapply Forall_impl; [apply Run_started|].
    intros cmd (b & _ & ->). reflexivity.
Qed.

End Further.

(** ** The environment of the bazel steps *)

Section BuildEnvironment.
Context `{Host}.

Lemma Collapse_of_Lookup e k v :
  Env.Lookup k e = Some v → (k +:+ "=" +:+ v) ∈ Env.Collapse e.
Proof.
  intros Hk. unfold Env.Collapse, Env.flatten.
  apply list_elem_of_fmap. exists k. split.
  - unfold Env.Lookup in Hk. rewrite Hk. reflexivity.
  - rewrite merge_sort_Permutation. apply elem_of_fst_map_to_list.
    exists v. exact Hk.
Qed.

Lemma resolve_buildEnv cfg :
  Env.resolve (buildEnv cfg) =
  <["GOROOT" := Config.GoRoot cfg]>
    (<["PATH" := (filepath_Join [Config.GoRoot cfg; "bin"] +:+ ":") +:+
                 default "" (Env.Lookup "PATH" (ConfigEnv.Env (Config.BuildEnv cfg)))]>
       (Env.resolve (ConfigEnv.Env (Config.BuildEnv cfg)))).
Proof. rewrite buildEnv_edits, resolve_applyEdits. reflexivity. Qed.

(** X3.  In the environment [Build] hands to its bazel steps, [GOROOT]
    is the toolchain root of the configuration and [PATH] is the
    toolchain's [bin] directory and a colon in front of the [PATH] of
    the configured build environment (in front of nothing when that has
    none); every other variable is as in the configured build
    environment.  The collapsed list holds these bindings as [K=V]
    entries. *)
Theorem buildEnv_bindings cfg :
  let base := ConfigEnv.Env (Config.BuildEnv cfg) in
  let path := (filepath_Join [Config.GoRoot cfg; "bin"] +:+ ":") +:+
              default "" (Env.Lookup "PATH" base) in
  Env.Lookup "GOROOT" (buildEnv cfg) = Some (Config.GoRoot cfg) ∧
  Env.Lookup "PATH" (buildEnv cfg) = Some path ∧
  (∀ k, k ≠ "PATH" → k ≠ "GOROOT" →
        Env.Lookup k (buildEnv cfg) = Env.Lookup k base) ∧
  ("GOROOT=" +:+ Config.GoRoot cfg) ∈ Env.Collapse (buildEnv cfg) ∧
  ("PATH=" +:+ path) ∈ Env.Collapse (buildEnv cfg) ∧
  (∀ k v, k ≠ "PATH" → k ≠ "GOROOT" → Env.Lookup k base = Some v →
          (k +:+ "=" +:+ v) ∈ Env.Collapse (buildEnv cfg)).
Proof.
  intros base path.
  assert (Env.Lookup "GOROOT" (buildEnv cfg) = Some (Config.GoRoot cfg)) as Hroot.
  { unfold Env.Lookup. rewrite resolve_buildEnv. apply lookup_insert_eq. }
  assert (Env.Lookup "PATH" (buildEnv cfg) = Some path) as Hpath.
  { unfold Env.Lookup. rewrite resolve_buildEnv.
    rewrite lookup_insert_ne by discriminate. apply lookup_insert_eq. }
  assert (∀ k, k ≠ "PATH" → k ≠ "GOROOT" →
               Env.Lookup k (buildEnv cfg) = Env.Lookup k base) as Hrest.
  { intros k Hp Hg. unfold Env.Lookup. rewrite resolve_buildEnv.
    rewrite lookup_insert_ne by congruence.
    rewrite lookup_insert_ne by congruence. reflexivity. }
  split_and!; [exact Hroot | exact Hpath | exact Hrest | | | ].
  - exact (Collapse_of_Lookup _ _ _ Hroot).
  - exact (Collapse_of_Lookup _ _ _ Hpath).
  - intros k v Hp Hg Hk. apply Collapse_of_Lookup.
    rewrite (Hrest k Hp Hg). exact Hk.
Qed.

End BuildEnvironment.

(** * The further properties on the scripted world *)

(** X3 on the demonstration configuration: [HOME] is passed on. *)
Lemma buildEnv_bindings_witness :
  Env.Lookup "HOME" (ConfigEnv.Env (Config.BuildEnv demoConfig)) = Some "/root" ∧
  "HOME=/root" ∈ Env.Collapse (buildEnv demoConfig) ∧
  Env.Lookup "PATH" (buildEnv demoConfig) = Some "/go/bin:/usr/bin".
Proof.
  split; [reflexivity|]. split.
  - apply (proj2 (proj2 (proj2 (proj2 (proj2 (buildEnv_bindings demoConfig)))))
             "HOME" "/root"); [discriminate | discriminate | reflexivity].
  - exact (proj1 (proj2 (buildEnv_bindings demoConfig))).
Defined.

(** X4 on the scripted world: a build in which every call succeeds,
    then a run. *)
Lemma driver_path_agrees_witness :
  BuildConfig.BinDir demoBuild = RunConfig.BinDir (demoRun false) ∧
  value (Build demoConfig demoBuild []) = None ∧
  calls (Build demoConfig demoBuild []) !! 5 =
    Some (ok (EvGoBuildPath (GoTool demoConfig) "/bench" "/bin/cockroachdb-bench")) ∧
  (∃ cmd, calls (Build demoConfig demoBuild []) !! 6 = Some (ok (EvCmdRun cmd)) ∧
          Cmd.Args cmd = ["chmod"; "-R"; "755"; "/bin/cockroachdb-bench"]) ∧
  Forall (λ cmd, head (Cmd.Args cmd) = Some "/bin/cockroachdb-bench")
         (started (calls (Run demoConfig (demoRun false) []))).
Proof.
  split; [reflexivity|]. split; [reflexivity|].
  exact (driver_path_agrees demoConfig demoBuild (demoRun false) [] [] eq_refl eq_refl).
Defined.

(** X6 on the scripted world: the second process, which fails, comes
    after the purge that followed the first. *)
Lemma Run_process_context_witness :
  let rcfg := demoRun false in
  let r := Run demoConfig rcfg [None; None; Some "exit status 1"] in
  let pre := roundOk demoConfig rcfg "kv0/nodes=1" ++ [traced demoConfig rcfg "kv50/nodes=1"] in
  calls r = pre ++ (EvCmdRun (runCmd demoConfig rcfg "kv50/nodes=1"), Some "exit status 1") :: [] ∧
  ∃ pre' cmd',
    pre = pre' ++ [(EvCmdRun cmd', None);
                   (EvRmDirContents "/tmp/crdb", None);
                   (EvTraceCommand (runCmd demoConfig rcfg "kv50/nodes=1") false, None)].
Proof.
  cbv zeta. split; [reflexivity|].
  exact (Run_process_context demoConfig (demoRun false) variants
           [None; None; Some "exit status 1"]
           (roundOk demoConfig (demoRun false) "kv0/nodes=1" ++
            [traced demoConfig (demoRun false) "kv50/nodes=1"])
           (runCmd demoConfig (demoRun false) "kv50/nodes=1")
           (Some "exit status 1") [] eq_refl).
Defined.

(** X8 on two configurations that differ in the toolchain root and in
    the build environment. *)
Lemma Run_reads_exec_env_only_witness :
  Config.GoRoot demoConfig ≠ Config.GoRoot demoConfig' ∧
  Env.Collapse (ConfigEnv.Env (Config.ExecEnv demoConfig)) =
  Env.Collapse (ConfigEnv.Env (Config.ExecEnv demoConfig')) ∧
  Run demoConfig (demoRun true) [None; None; None; Some "exit status 1"] =
  Run demoConfig' (demoRun true) [None; None; None; Some "exit status 1"].
Proof.
  split; [discriminate|]. split; [reflexivity|].
  exact (Run_reads_exec_env_only demoConfig demoConfig' (demoRun true) _ eq_refl).
Defined.
